(** * python-on-whales: lazy-refresh handles and collection clients

    A shallow embedding of [docker_cli_wrapper/volume.py] and
    [python_on_whales/components/network.py].

    Python objects that are mutated in place ([Volume]) live in an explicit
    state; every call of the subprocess helper [run] is recorded in a log,
    so that the number and the contents of the invocations can be stated.
    A raised exception is a result [Raise e]; the state reached when the
    exception is raised is kept, as in Python. *)

From Stdlib Require Import String Ascii List ZArith QArith Bool Lia.
Import ListNotations.
Local Open Scope string_scope.
Local Open Scope list_scope.
Local Open Scope Z_scope.
Set Warnings "-register-all".

(** ** Python values, exceptions and the state-and-exception monad *)
Module Py.

(** The exceptions the modelled code can raise.  [InvocationError] stands
    for whatever [utils.run] raises when the external process fails. *)
Inductive exn : Type :=
| TypeError (msg : string)
| IndexError
| KeyError
| AttributeError (msg : string)
| JSONDecodeError
| ValidationError
| InvocationError (msg : string).

Inductive result (A : Type) : Type :=
| Return (a : A)
| Raise (e : exn).
Arguments Return {A} a.
Arguments Raise {A} e.

(** A computation over a state [S]: it yields a value or raises, and in
    both cases leaves a state behind. *)
Definition M (S A : Type) : Type := S -> result A * S.

Definition ret {S A} (a : A) : M S A := fun s => (Return a, s).
Definition raise {S A} (e : exn) : M S A := fun s => (Raise e, s).
Definition bind {S A B} (m : M S A) (k : A -> M S B) : M S B :=
  fun s => match m s with
           | (Return a, s') => k a s'
           | (Raise e, s') => (Raise e, s')
           end.
Definition lift {S A} (r : result A) : M S A := fun s => (r, s).
Definition gets {S A} (f : S -> A) : M S A := fun s => (Return (f s), s).
Definition modify {S} (f : S -> S) : M S unit := fun s => (Return tt, f s).

Definition rbind {A B} (r : result A) (k : A -> result B) : result B :=
  match r with
  | Return a => k a
  | Raise e => Raise e
  end.

(** [datetime] values are counted in microseconds since [datetime.min];
    the difference of two of them is a [timedelta], also in microseconds.
    Every difference of two datetimes fits a timedelta, so the subtraction
    cannot overflow. *)
Definition datetime : Type := Z.
Definition datetime_min : datetime := 0.

(** The operands of the comparison in [_needs_reload]. A float is given by
    the rational it denotes. *)
Inductive num : Type :=
| PyTimedelta (microseconds : Z)
| PyFloat (value : Q).

Definition type_name (v : num) : string :=
  match v with
  | PyTimedelta _ => "datetime.timedelta"
  | PyFloat _ => "float"
  end.

(** [datetime.__sub__] on two datetimes. *)
Definition datetime_sub (a b : datetime) : num := PyTimedelta (a - b).

(** The float that the literal [0.2] denotes (binary64). *)
Definition float_0_2 : Q := 3602879701896397 # 18014398509481984.

(** [a <= b]: a timedelta is ordered with timedeltas only and a float with
    floats only; for a mixed pair both [__le__] and the reflected [__ge__]
    return NotImplemented and the interpreter raises TypeError. *)
Definition le (a b : num) : result bool :=
  match a, b with
  | PyTimedelta x, PyTimedelta y => Return (x <=? y)
  | PyFloat x, PyFloat y => Return (Qle_bool x y)
  | _, _ => Raise (TypeError ("'<=' not supported between instances of '"
                                ++ type_name a ++ "' and '" ++ type_name b ++ "'"))
  end.

(** What [json.loads] produces. *)
Inductive json : Type :=
| JNone
| JBool (b : bool)
| JInt (n : Z)
| JFloat (q : Q)
| JStr (s : string)
| JList (l : list json)
| JDict (d : list (string * json)).

(** [obj[0]] on a decoded JSON value. The keys of a decoded dict are
    strings, so the key [0] is never present. *)
Definition getitem0 (obj : json) : result json :=
  match obj with
  | JList (x :: _) => Return x
  | JList [] => Raise IndexError
  | JStr (String c _) => Return (JStr (String c EmptyString))
  | JStr EmptyString => Raise IndexError
  | JDict _ => Raise KeyError
  | JNone => Raise (TypeError "'NoneType' object is not subscriptable")
  | JBool _ => Raise (TypeError "'bool' object is not subscriptable")
  | JInt _ => Raise (TypeError "'int' object is not subscriptable")
  | JFloat _ => Raise (TypeError "'float' object is not subscriptable")
  end.

(** [s.split("\n")]: the pieces between newlines, always at least one. *)
Fixpoint split_newline_aux (cur : string) (s : string) : list string :=
  match s with
  | EmptyString => [cur]
  | String c rest =>
      if Ascii.eqb c "010"%char
      then cur :: split_newline_aux EmptyString rest
      else split_newline_aux (cur ++ String c EmptyString) rest
  end.
Definition split_newline (s : string) : list string :=
  split_newline_aux EmptyString s.

(** [s.splitlines()]. A string is a sequence of code points below 256;
    among those the line boundaries are LF, VT, FF, CR, CR LF, FS, GS, RS
    and NEL. No empty last line is produced. *)
Definition is_line_boundary (c : ascii) : bool :=
  let n := nat_of_ascii c in
  (Nat.eqb n 10 || Nat.eqb n 11 || Nat.eqb n 12 || Nat.eqb n 13
   || Nat.eqb n 28 || Nat.eqb n 29 || Nat.eqb n 30 || Nat.eqb n 133)%bool.

Fixpoint splitlines_aux (after_cr : bool) (cur : string) (s : string) : list string :=
  match s with
  | EmptyString => match cur with EmptyString => [] | _ => [cur] end
  | String c rest =>
      if (after_cr && Ascii.eqb c "010"%char)%bool
      then splitlines_aux false EmptyString rest
      else if is_line_boundary c
      then cur :: splitlines_aux (Ascii.eqb c "013"%char) EmptyString rest
      else splitlines_aux false (cur ++ String c EmptyString) rest
  end.
Definition splitlines (s : string) : list string :=
  splitlines_aux false EmptyString s.

(** [Union[T, List[T]]]: an argument that is one value or a list of
    values; the constructor records what [isinstance] answers. *)
Inductive one_or_list (T : Type) : Type :=
| One (x : T)
| Many (xs : list T).
Arguments One {T} x.
Arguments Many {T} xs.

End Py.

Declare Scope py_scope.
Delimit Scope py_scope with py.
Notation "x <- m ;; k" := (Py.bind m (fun x => k))
  (at level 61, m at next level, right associativity) : py_scope.
Notation "m ;;; k" := (Py.bind m (fun _ => k))
  (at level 61, right associativity) : py_scope.

(** ** docker_cli_wrapper/volume.py *)
Module Volume.
Import Py.
Local Open Scope py_scope.

(** [class VolumeInspectResult(pydantic.BaseModel)] *)
Record VolumeInspectResult : Type := mkVolumeInspectResult {
  CreatedAt : datetime;
  Driver : string;
  Labels : list (string * string);
  Mountpoint : string;
  Name : string;
  Options : option string;
  Scope : string
}.

(** [class Volume]: the fields set by [__init__]. *)
Record Volume : Type := mkVolume {
  _docker_cmd : list string;
  name : string;
  _volume_inspect_result : option VolumeInspectResult;
  _last_refreshed_time : datetime
}.

(** [Volume.__init__] *)
Definition Volume__init__ (docker_cmd : list string) (name : string) : Volume :=
  {| _docker_cmd := docker_cmd;
     name := name;
     _volume_inspect_result := None;
     _last_refreshed_time := datetime_min |}.

(** [Volume.__str__] *)
Definition Volume__str__ (v : Volume) : string := name v.

(** What lies outside the program: the external engine behind [run],
    which answers a command given the invocations made before it, and the
    library functions [json.loads] and [VolumeInspectResult.parse_obj]. *)
Record World : Type := mkWorld {
  engine : list (list string) -> list string -> result string;
  json_loads : string -> result json;
  parse_obj : json -> result VolumeInspectResult
}.

(** The invocations of the subprocess layer so far, oldest first. *)
Definition Calls : Type := list (list string).

(** Modelled from the spec: [utils.run] is not under src/. It executes the
    command, returns the text of its standard output and raises when the
    process fails; each call is recorded. *)
Definition run (w : World) (full_cmd : list string) : M Calls string :=
  fun calls => (engine w calls full_cmd, calls ++ [full_cmd]).

(** The state a method of a [Volume] object runs in. *)
Record State : Type := mkState {
  self : Volume;
  calls : Calls
}.

Definition on_calls {A} (m : M Calls A) : M State A :=
  fun st => let (r, c) := m (calls st) in
            (r, {| self := self st; calls := c |}).

Definition set_volume_inspect_result (r : VolumeInspectResult) (st : State) : State :=
  {| self := {| _docker_cmd := _docker_cmd (self st);
                name := name (self st);
                _volume_inspect_result := Some r;
                _last_refreshed_time := _last_refreshed_time (self st) |};
     calls := calls st |}.

Section Methods.
Variable w : World.

(** [Volume._needs_reload], with [now] the value of [datetime.now()]. *)
Definition _needs_reload (now : datetime) : M State bool :=
  v <- gets self ;;
  lift (le (datetime_sub now (_last_refreshed_time v)) (PyFloat float_0_2)).

(** [Volume.reload] *)
Definition reload : M State unit :=
  v <- gets self ;;
  json_str <- on_calls (run w (_docker_cmd v ++ ["volume"; "inspect"; name v])) ;;
  json_arr <- lift (json_loads w json_str) ;;
  json_obj <- lift (getitem0 json_arr) ;;
  r <- lift (parse_obj w json_obj) ;;
  modify (set_volume_inspect_result r).

(** [Volume._reload_if_necessary] *)
Definition _reload_if_necessary (now : datetime) : M State unit :=
  b <- _needs_reload now ;;
  if b then reload else ret tt.

(** [Volume.created_at]; reading an attribute of [None] raises
    AttributeError. *)
Definition created_at (now : datetime) : M State datetime :=
  _reload_if_necessary now ;;;
  v <- gets self ;;
  match _volume_inspect_result v with
  | Some r => ret (CreatedAt r)
  | None => raise (AttributeError "'NoneType' object has no attribute 'CreatedAt'")
  end.

(** [Volume.driver] *)
Definition driver (now : datetime) : M State string :=
  _reload_if_necessary now ;;;
  v <- gets self ;;
  match _volume_inspect_result v with
  | Some r => ret (Driver r)
  | None => raise (AttributeError "'NoneType' object has no attribute 'Driver'")
  end.

(** The two properties of a handle, and a read of either. *)
Inductive attribute : Type := attr_created_at | attr_driver.

Inductive attribute_value : Type :=
| ValDatetime (d : datetime)
| ValStr (s : string).

Definition read (a : attribute) (now : datetime) : M State attribute_value :=
  match a with
  | attr_created_at => d <- created_at now ;; ret (ValDatetime d)
  | attr_driver => s <- driver now ;; ret (ValStr s)
  end.
End Methods.

(** [VolumeArg = Union[Volume, str]] *)
Inductive VolumeArg : Type :=
| ArgVolume (v : Volume)
| ArgStr (s : string).

(** [str(v)] for a [VolumeArg]. *)
Definition str (v : VolumeArg) : string :=
  match v with
  | ArgVolume vol => Volume__str__ vol
  | ArgStr s => s
  end.

(** [to_list], on the argument type [Union[VolumeArg, List[VolumeArg]]]
    that [@typechecked] enforces on [remove]. *)
Definition to_list {T} (x : one_or_list T) : list T :=
  match x with
  | Many xs => xs
  | One v => [v]
  end.

(** [class VolumeCLI] *)
Record VolumeCLI : Type := mkVolumeCLI {
  cli_docker_cmd : list string
}.

(** [VolumeCLI._make_cli_cmd] *)
Definition _make_cli_cmd (c : VolumeCLI) : list string :=
  cli_docker_cmd c ++ ["volume"].

(** The f-string [f"{key}={value}"] on two strings. *)
Definition key_eq_value (kv : string * string) : string :=
  fst kv ++ "=" ++ snd kv.

(** The command that [VolumeCLI.create] builds; a dict is the list of its
    items in iteration order, each [for] loop a left fold over them. *)
Definition create_full_cmd (c : VolumeCLI)
    (volume_name driver : option string)
    (labels options : list (string * string)) : list string :=
  let full_cmd := _make_cli_cmd c ++ ["create"] in
  let full_cmd := match volume_name with
                  | Some n => full_cmd ++ [n]
                  | None => full_cmd
                  end in
  let full_cmd := match driver with
                  | Some d => full_cmd ++ ["--driver"; d]
                  | None => full_cmd
                  end in
  let full_cmd := fold_left (fun cmd kv => cmd ++ ["--label"; key_eq_value kv])
                            labels full_cmd in
  let full_cmd := fold_left (fun cmd kv => cmd ++ ["--opt"; key_eq_value kv])
                            options full_cmd in
  full_cmd.

(** [VolumeCLI.create] *)
Definition create (w : World) (c : VolumeCLI)
    (volume_name driver : option string)
    (labels options : list (string * string)) : M Calls Volume :=
  out <- run w (create_full_cmd c volume_name driver labels options) ;;
  ret (Volume__init__ (cli_docker_cmd c) out).

(** The command that [VolumeCLI.remove] builds. *)
Definition remove_full_cmd (c : VolumeCLI) (x : one_or_list VolumeArg) : list string :=
  fold_left (fun cmd v => cmd ++ [str v]) (to_list x) (_make_cli_cmd c ++ ["remove"]).

(** [VolumeCLI.remove] *)
Definition remove (w : World) (c : VolumeCLI) (x : one_or_list VolumeArg)
  : M Calls (list string) :=
  out <- run w (remove_full_cmd c x) ;;
  ret (split_newline out).

End Volume.

(** ** python_on_whales/components/network.py *)
Module Network.
Import Py.
Local Open Scope py_scope.

(** [class NetworkInspectResult(DockerCamelModel)] *)
Record NetworkInspectResult : Type := mkNetworkInspectResult {
  id : string;
  name : string;
  created : datetime;
  scope : string;
  driver : string;
  enable_I_pv6 : bool;
  internal : bool;
  attachable : bool;
  ingress : bool;
  config_from : list (string * json);
  config_only : bool;
  containers : list (string * json);
  options : list (string * json);
  labels : list (string * json)
}.

(** Modelled from the spec: [ClientConfig] and [DockerCLICaller]
    (client_config.py) are not under src/. A collection client holds only
    the invocation prefix for the external engine. *)
Record ClientConfig : Type := mkClientConfig {
  docker_cmd : list string
}.

(** Modelled from the spec: [ReloadableObjectFromJson] (client_config.py)
    is not under src/. A handle holds its identity (a name or an ID and the
    immutable-id flag), a cached inspection result, absent until a reload
    succeeds, and the time of the last refresh. *)
Record Network : Type := mkNetwork {
  client_config : ClientConfig;
  _id_in_inspect : string;
  _reference : string;
  _is_immutable_id : bool;
  _inspect_result : option NetworkInspectResult;
  _last_refreshed_time : datetime
}.

(** Modelled from the spec: [ReloadableObjectFromJson.__init__] is not
    under src/. Constructing a handle stores its identity and fetches
    nothing: the metadata is fetched lazily, when an attribute is read. *)
Definition ReloadableObjectFromJson__init__ (client_config : ClientConfig)
    (id_in_inspect reference : string) (is_immutable_id : bool) : Network :=
  {| client_config := client_config;
     _id_in_inspect := id_in_inspect;
     _reference := reference;
     _is_immutable_id := is_immutable_id;
     _inspect_result := None;
     _last_refreshed_time := datetime_min |}.

(** [Network.__init__] *)
Definition Network__init__ (client_config : ClientConfig) (reference : string)
    (is_immutable_id : bool) : Network :=
  ReloadableObjectFromJson__init__ client_config "id" reference is_immutable_id.

(** The objects that travel as arguments and as elements of a command. *)
Inductive pyval : Type :=
| PStr (s : string)
| PNetwork (n : Network)
| PList (l : list pyval)
| PDict (d : list (string * string)).

(** Modelled from the spec: [Command] (utils.py) is not under src/; it is
    the list of the objects appended to it, and starts as the strings of
    the invocation prefix. *)
Definition Command : Type := list pyval.

Definition strs (l : list string) : Command := map PStr l.

(** Modelled from the spec: [Command.add_flag] is not under src/; a
    boolean becomes a presence flag. *)
Definition add_flag (full_cmd : Command) (name : string) (value : bool) : Command :=
  if value then full_cmd ++ [PStr name] else full_cmd.

(** Modelled from the spec: [Command.add_simple_arg] is not under src/; an
    optional value that is present becomes the flag and the value. *)
Definition add_simple_arg (full_cmd : Command) (name : string)
    (value : option string) : Command :=
  match value with
  | Some v => full_cmd ++ [PStr name; PStr v]
  | None => full_cmd
  end.

(** Modelled from the spec: [Command.add_args_list] is not under src/; a
    sequence becomes a repeated flag, one per element, in order. *)
Definition add_args_list (full_cmd : Command) (name : string)
    (values : list string) : Command :=
  fold_left (fun cmd v => cmd ++ [PStr name; PStr v]) values full_cmd.

(** Modelled from the spec: [utils.format_dict_for_cli] is not under src/;
    each entry of a mapping becomes [key=value], as [VolumeCLI.create]
    formats its labels. Only a mapping has items. *)
Definition format_dict_for_cli (filters : pyval) : result (list string) :=
  match filters with
  | PDict d => Return (map Volume.key_eq_value d)
  | PStr _ => Raise (AttributeError "'str' object has no attribute 'items'")
  | PList _ => Raise (AttributeError "'list' object has no attribute 'items'")
  | PNetwork _ => Raise (AttributeError "'Network' object has no attribute 'items'")
  end.

(** [utils.to_list], imported by network.py; volume.py defines it: a list
    is returned as it is, anything else is wrapped in a list. *)
Definition to_list (x : pyval) : list pyval :=
  match x with
  | PList l => l
  | _ => [x]
  end.

(** The invocations of the subprocess layer so far, oldest first. *)
Definition Calls : Type := list Command.

(** The external engine: its answer to a command, given the invocations
    made before it. *)
Definition Engine : Type := Calls -> Command -> result string.

(** Modelled from the spec: [utils.run] is not under src/; see
    [Volume.run]. *)
Definition run (engine : Engine) (full_cmd : Command) : M Calls string :=
  fun calls => (engine calls full_cmd, calls ++ [full_cmd]).

Section NetworkCLI.
Variable engine : Engine.
Variable cfg : ClientConfig.

(** [NetworkCLI.create] *)
Definition create (name : string) (attachable : bool)
    (driver gateway subnet : option string) (options : list string)
  : M Calls Network :=
  let full_cmd := strs (docker_cmd cfg) ++ [PStr "network"; PStr "create"] in
  let full_cmd := add_flag full_cmd "--attachable" attachable in
  let full_cmd := add_simple_arg full_cmd "--driver" driver in
  let full_cmd := add_simple_arg full_cmd "--gateway" gateway in
  let full_cmd := add_simple_arg full_cmd "--subnet" subnet in
  let full_cmd := add_args_list full_cmd "--opt" options in
  let full_cmd := full_cmd ++ [PStr name] in
  out <- run engine full_cmd ;;
  ret (Network__init__ cfg out true).

(** [NetworkCLI.inspect], on the argument type [Union[str, List[str]]]
    of its signature. *)
Definition inspect (x : one_or_list string) : M Calls (one_or_list Network) :=
  match x with
  | One reference => ret (One (Network__init__ cfg reference false))
  | Many references =>
      ret (Many (map (fun reference => Network__init__ cfg reference false)
                     references))
  end.

(** [NetworkCLI.list] *)
Definition list_ (filters : pyval) : M Calls (list Network) :=
  let full_cmd := strs (docker_cmd cfg)
                    ++ [PStr "network"; PStr "list"; PStr "--no-trunc"; PStr "--quiet"] in
  formatted <- lift (format_dict_for_cli filters) ;;
  let full_cmd := add_args_list full_cmd "--filter" formatted in
  out <- run engine full_cmd ;;
  let ids := splitlines out in
  ret (map (fun id_ => Network__init__ cfg id_ true) ids).

(** [NetworkCLI.prune] *)
Definition prune (filters : pyval) : M Calls unit :=
  let full_cmd := strs (docker_cmd cfg)
                    ++ [PStr "network"; PStr "prune"; PStr "--force"] in
  formatted <- lift (format_dict_for_cli filters) ;;
  let full_cmd := add_args_list full_cmd "--filter" formatted in
  run engine full_cmd ;;;
  ret tt.

(** [NetworkCLI.remove] *)
Definition remove (networks : pyval) : M Calls unit :=
  let full_cmd := strs (docker_cmd cfg) ++ [PStr "network"; PStr "remove"] in
  let full_cmd := fold_left (fun cmd network => cmd ++ [network])
                            (to_list networks) full_cmd in
  run engine full_cmd ;;;
  ret tt.
End NetworkCLI.

End Network.

(** ** The specification's reading of the handle, and fixtures *)
Module Spec.
Import Py.

(** The debounce threshold, 0.2 time-units, in microseconds. *)
Definition debounce_threshold : Z := 200000.

(** [needs_reload()] as the specification words it: true iff
    [(now - last_refreshed_time) > debounce_threshold]. *)
Definition needs_reload_spec (now last_refreshed_time : datetime) : bool :=
  debounce_threshold <? now - last_refreshed_time.

(** The message of the TypeError that [timedelta <= float] raises. *)
Definition le_timedelta_float : string :=
  "'<=' not supported between instances of 'datetime.timedelta' and 'float'".

(** The command of [volume inspect] for a handle. *)
Definition inspect_cmd (v : Volume.Volume) : list string :=
  Volume._docker_cmd v ++ ["volume"; "inspect"; Volume.name v].

(** What the world answers to the inspection of a handle, decoded: the
    output of the process, parsed, its first element, validated. *)
Definition fetch_and_parse (w : Volume.World) (st : Volume.State)
  : result Volume.VolumeInspectResult :=
  rbind (Volume.engine w (Volume.calls st) (inspect_cmd (Volume.self st)))
    (fun json_str =>
  rbind (Volume.json_loads w json_str) (fun json_arr =>
  rbind (getitem0 json_arr) (fun json_obj =>
  Volume.parse_obj w json_obj))).

(** The state after an inspection was invoked and nothing was stored. *)
Definition invoked (st : Volume.State) : Volume.State :=
  {| Volume.self := Volume.self st;
     Volume.calls := Volume.calls st ++ [inspect_cmd (Volume.self st)] |}.

(** The ways the inspection of a handle can fail: the process fails, its
    output is not JSON, the decoded value has no first element, or that
    element is not a valid inspection result. *)
Inductive reload_fails (w : Volume.World) (st : Volume.State) : exn -> Prop :=
| process_fails e :
    Volume.engine w (Volume.calls st) (inspect_cmd (Volume.self st)) = Raise e ->
    reload_fails w st e
| malformed_json json_str e :
    Volume.engine w (Volume.calls st) (inspect_cmd (Volume.self st)) = Return json_str ->
    Volume.json_loads w json_str = Raise e ->
    reload_fails w st e
| wrong_shape json_str json_arr e :
    Volume.engine w (Volume.calls st) (inspect_cmd (Volume.self st)) = Return json_str ->
    Volume.json_loads w json_str = Return json_arr ->
    getitem0 json_arr = Raise e ->
    reload_fails w st e
| invalid_object json_str json_arr json_obj e :
    Volume.engine w (Volume.calls st) (inspect_cmd (Volume.self st)) = Return json_str ->
    Volume.json_loads w json_str = Return json_arr ->
    getitem0 json_arr = Return json_obj ->
    Volume.parse_obj w json_obj = Raise e ->
    reload_fails w st e.

(** An error that tells the caller that no inspection result is there:
    the AttributeError of reading a field of [None]. *)
Definition is_unavailable_error {A} (r : result A) : Prop :=
  exists msg, r = Raise (AttributeError msg).

(** [--label key=value] and [--opt key=value]. *)
Definition label_pair (kv : string * string) : list string :=
  ["--label"; Volume.key_eq_value kv].
Definition opt_pair (kv : string * string) : list string :=
  ["--opt"; Volume.key_eq_value kv].

(** The part of the [volume create] command that precedes the labels. *)
Definition create_head (c : Volume.VolumeCLI) (volume_name driver : option string)
  : list string :=
  Volume.cli_docker_cmd c ++ ["volume"; "create"]
    ++ match volume_name with Some n => [n] | None => [] end
    ++ match driver with Some d => ["--driver"; d] | None => [] end.

(** [--filter key=value], once per entry of the filters. *)
Definition filter_args (d : list (string * string)) : Network.Command :=
  flat_map (fun kv => [Network.PStr "--filter"; Network.PStr (Volume.key_eq_value kv)]) d.



(** The flag sequences of [network list], [network prune] and
    [network remove]. *)
Definition network_list_cmd (cfg : Network.ClientConfig)
    (filters : list (string * string)) : Network.Command :=
  Network.strs (Network.docker_cmd cfg)
    ++ [Network.PStr "network"; Network.PStr "list";
        Network.PStr "--no-trunc"; Network.PStr "--quiet"]
    ++ filter_args filters.

Definition network_prune_cmd (cfg : Network.ClientConfig)
    (filters : list (string * string)) : Network.Command :=
  Network.strs (Network.docker_cmd cfg)
    ++ [Network.PStr "network"; Network.PStr "prune"; Network.PStr "--force"]
    ++ filter_args filters.

Definition network_remove_cmd (cfg : Network.ClientConfig)
    (networks : list Network.pyval) : Network.Command :=
  Network.strs (Network.docker_cmd cfg)
    ++ [Network.PStr "network"; Network.PStr "remove"]
    ++ networks.

(** The result of an operation that maps the output of its one
    invocation, and raises what the invocation raises. *)
Definition on_output {A} (r : result string) (f : string -> A) : result A :=
  rbind r (fun out => Return (f out)).
End Spec.

Module Fixtures.
Import Py.

Definition docker : list string := ["docker"].

(** 2020-01-01T00:00:00, and a quarter of a second later. *)
Definition t_2020 : datetime := 63713433600000000.
Definition t_2020_later : datetime := t_2020 + 250000.

Definition inspect_output : string := "[{Name: v, Driver: local, Scope: local}]".

Definition volume_v : Volume.VolumeInspectResult :=
  {| Volume.CreatedAt := t_2020;
     Volume.Driver := "local";
     Volume.Labels := [];
     Volume.Mountpoint := "/var/lib/docker/volumes/v/_data";
     Volume.Name := "v";
     Volume.Options := None;
     Volume.Scope := "local" |}.

Definition volume_v_json : json :=
  JDict [("Name", JStr "v"); ("Driver", JStr "local"); ("Scope", JStr "local")].

(** An engine that knows the volume [v]. *)
Definition good_world : Volume.World :=
  {| Volume.engine := fun _ _ => Return inspect_output;
     Volume.json_loads := fun s =>
       if String.eqb s inspect_output then Return (JList [volume_v_json])
       else Raise JSONDecodeError;
     Volume.parse_obj := fun j =>
       match j with
       | JDict _ => Return volume_v
       | _ => Raise ValidationError
       end |}.

(** An engine whose every invocation fails. *)
Definition failing_world : Volume.World :=
  {| Volume.engine := fun _ _ => Raise (InvocationError "Error: No such volume: v");
     Volume.json_loads := Volume.json_loads good_world;
     Volume.parse_obj := Volume.parse_obj good_world |}.

(** An engine that answers with an empty JSON array. *)
Definition empty_array_world : Volume.World :=
  {| Volume.engine := fun _ _ => Return "[]";
     Volume.json_loads := fun _ => Return (JList []);
     Volume.parse_obj := Volume.parse_obj good_world |}.

Definition fresh_v : Volume.State :=
  {| Volume.self := Volume.Volume__init__ docker "v"; Volume.calls := [] |}.

Definition cli : Volume.VolumeCLI := {| Volume.cli_docker_cmd := docker |}.

Definition cfg : Network.ClientConfig := {| Network.docker_cmd := docker |}.

(** A network engine that answers every command with two identifiers. *)
Definition two_ids : Network.Engine := fun _ _ => Return "id1
id2".
End Fixtures.

(** ** Loops that append to a command *)
Module ListFacts.

(** A [for] loop that appends [f x] for each [x] appends their
    concatenation. *)
Lemma fold_left_app_flat_map {A B} (f : B -> list A) (l : list B) (init : list A) :
  fold_left (fun acc x => acc ++ f x) l init = init ++ flat_map f l.
Proof.
  revert init. induction l as [| x l IH]; intros init; simpl.
  - now rewrite app_nil_r.
  - now rewrite IH, app_assoc.
Qed.

End ListFacts.

(** ** network.py: the methods of a [Network] handle, and their use *)
Module Handle.
Import Py Network.
Local Open Scope py_scope.

Section Methods.
Variable engine : Engine.

(** [Network.__enter__] *)
Definition __enter__ (self : Network) : Network := self.

(** [Network.remove]: [NetworkCLI(self.client_config).remove(self)]. *)
Definition Network_remove (self : Network) : M Calls unit :=
  remove engine (client_config self) (PNetwork self).

(** [Network.__exit__]; it returns [None], so an exception of the body is
    not suppressed. *)
Definition __exit__ (self : Network) : M Calls unit :=
  Network_remove self.

(** [Network._fetch_inspect_result_json] *)
Definition _fetch_inspect_result_json (self : Network) (reference : string)
  : M Calls string :=
  run engine (strs (docker_cmd (client_config self))
                ++ [PStr "network"; PStr "inspect"; PStr reference]).

(** [with network as my_net: body], as in the docstring of
    [Network.remove]: the body runs on what [__enter__] returns, and
    [__exit__] runs whether the body returned or raised; an exception of
    [__exit__] takes the place of the outcome of the body. *)
Definition with_ {A} (network : Network) (body : Network -> M Calls A) : M Calls A :=
  fun log =>
    let (outcome, log1) := body (__enter__ network) log in
    match __exit__ network log1 with
    | (Return _, log2) => (outcome, log2)
    | (Raise e, log2) => (Raise e, log2)
    end.
End Methods.
End Handle.

(** ** network.py: [inspect] over the constructor of the handle class *)
Module Constructed.
Import Py Network.
Local Open Scope py_scope.

(** A list comprehension whose element expression can invoke the subprocess
    layer and can raise: the elements are built in order, and the first
    exception ends the comprehension. *)
Fixpoint mapM {S A B} (f : A -> M S B) (l : list A) : M S (list B) :=
  match l with
  | [] => ret []
  | a :: rest =>
      b <- f a ;;
      bs <- mapM f rest ;;
      ret (b :: bs)
  end.

(** [ReloadableObjectFromJson.__init__] (client_config.py) is not under
    src/: here it is any computation on the configuration, the name of the
    identifier field, the reference and the immutable-id flag. *)
Definition BaseConstructor : Type :=
  ClientConfig -> string -> string -> bool -> M Calls Network.

(** [Network.__init__], over the constructor of the base class. *)
Definition Network__init__with (base : BaseConstructor) (client_config : ClientConfig)
    (reference : string) (is_immutable_id : bool) : M Calls Network :=
  base client_config "id" reference is_immutable_id.

(** [NetworkCLI.inspect], over the constructor of the base class. *)
Definition inspect_with (base : BaseConstructor) (cfg : ClientConfig)
    (x : one_or_list string) : M Calls (one_or_list Network) :=
  match x with
  | One reference =>
      h <- Network__init__with base cfg reference false ;;
      ret (One h)
  | Many references =>
      hs <- mapM (fun reference => Network__init__with base cfg reference false)
                 references ;;
      ret (Many hs)
  end.

(** Two constructors: one stores the identity and fetches nothing, as
    [Network.ReloadableObjectFromJson__init__]; the other fetches the
    inspection of a reference that is not an immutable identifier, through
    [Network._fetch_inspect_result_json]. *)
Definition storing : BaseConstructor :=
  fun client_config id_in_inspect reference is_immutable_id =>
    ret (ReloadableObjectFromJson__init__ client_config id_in_inspect reference
           is_immutable_id).

Definition resolving (engine : Engine) : BaseConstructor :=
  fun client_config id_in_inspect reference is_immutable_id =>
    let self := ReloadableObjectFromJson__init__ client_config id_in_inspect
                  reference is_immutable_id in
    if is_immutable_id then ret self
    else Handle._fetch_inspect_result_json engine self reference ;;; ret self.
End Constructed.

(** ** Auxiliary notions for the properties below *)
Module Aux.
Import Py.

(** ["\n".join(pieces)] *)
Fixpoint join_newline (pieces : list string) : string :=
  match pieces with
  | [] => EmptyString
  | [p] => p
  | p :: rest => p ++ String "010" (join_newline rest)
  end.

(** Whether the character occurs in the string. *)
Fixpoint occurs (c : ascii) (s : string) : bool :=
  match s with
  | EmptyString => false
  | String d rest => (Ascii.eqb d c || occurs c rest)%bool
  end.

(** The number of occurrences of the character in the string. *)
Fixpoint count_char (c : ascii) (s : string) : nat :=
  match s with
  | EmptyString => O
  | String d rest => ((if Ascii.eqb d c then 1 else 0) + count_char c rest)%nat
  end.

(** Whether the string is free of line boundaries. *)
Fixpoint one_line (s : string) : bool :=
  match s with
  | EmptyString => true
  | String c rest => (negb (is_line_boundary c) && one_line rest)%bool
  end.

(** The handle state with another cached result. *)
Definition with_cache (cache : option Volume.VolumeInspectResult)
    (st : Volume.State) : Volume.State :=
  {| Volume.self :=
       {| Volume._docker_cmd := Volume._docker_cmd (Volume.self st);
          Volume.name := Volume.name (Volume.self st);
          Volume._volume_inspect_result := cache;
          Volume._last_refreshed_time := Volume._last_refreshed_time (Volume.self st) |};
     Volume.calls := Volume.calls st |}.

(** [reload()] called [n] times in a row, stopping at the first exception. *)
Fixpoint reload_times (w : Volume.World) (n : nat) : M Volume.State unit :=
  match n with
  | O => ret tt
  | S k => bind (Volume.reload w) (fun _ => reload_times w k)
  end.

(** A world whose library functions always succeed. *)
Definition answers (w : Volume.World) : Prop :=
  forall log cmd, exists out arr obj r,
    Volume.engine w log cmd = Return out
    /\ Volume.json_loads w out = Return arr
    /\ getitem0 arr = Return obj
    /\ Volume.parse_obj w obj = Return r.
End Aux.

(** ** The library functions on small inputs *)
Module PyExamples.
Import Py.

Example split_newline_two : split_newline "a
b" = ["a"; "b"].
Proof. reflexivity. Qed.

Example split_newline_empty : split_newline "" = [""].
Proof. reflexivity. Qed.

Example split_newline_trailing : split_newline "a
" = ["a"; ""].
Proof. reflexivity. Qed.

Example splitlines_trailing : splitlines "a
b
" = ["a"; "b"].
Proof. reflexivity. Qed.

Example splitlines_empty : splitlines "" = [].
Proof. reflexivity. Qed.

Example splitlines_crlf :
  splitlines (String "a" (String "013" (String "010" (String "013" "b"))))
  = ["a"; ""; "b"].
Proof. reflexivity. Qed.

Example le_timedeltas : le (PyTimedelta 100000) (PyTimedelta 200000) = Return true.
Proof. reflexivity. Qed.

Example le_floats : le (PyFloat (1 # 4)) (PyFloat float_0_2) = Return false.
Proof. reflexivity. Qed.

Example le_timedelta_float_raises :
  le (datetime_sub Fixtures.t_2020 datetime_min) (PyFloat float_0_2)
  = Raise (TypeError Spec.le_timedelta_float).
Proof. reflexivity. Qed.

Example getitem0_first : getitem0 (JList [JInt 1; JInt 2]) = Return (JInt 1).
Proof. reflexivity. Qed.

Example getitem0_empty : getitem0 (JList []) = Raise IndexError.
Proof. reflexivity. Qed.

Example getitem0_dict : getitem0 (JDict [("Name", JStr "v")]) = Raise KeyError.
Proof. reflexivity. Qed.
End PyExamples.

(** ** Properties of the volume handle and the volume client *)
Module VolumeFacts.
Import Py Volume Spec ListFacts.
Local Open Scope py_scope.

Ltac unfold_py :=
  unfold _needs_reload, reload, _reload_if_necessary, created_at, driver, read,
    on_calls, run, bind, ret, raise, lift, gets, modify in *.

Lemma needs_reload_TypeError (now : datetime) (st : State) :
  _needs_reload now st = (Raise (TypeError le_timedelta_float), st).
Proof. reflexivity. Qed.

Lemma read_TypeError (w : World) (a : attribute) (now : datetime) (st : State) :
  read w a now st = (Raise (TypeError le_timedelta_float), st).
Proof. destruct a; reflexivity. Qed.

(** The outcome of [reload], case by case on what the world answers. *)
Lemma reload_outcome (w : World) (st : State) :
  reload w st =
  match fetch_and_parse w st with
  | Return r => (Return tt, set_volume_inspect_result r (invoked st))
  | Raise e => (Raise e, invoked st)
  end.
Proof.
  unfold fetch_and_parse, invoked, inspect_cmd. unfold_py. simpl.
  destruct (engine w (calls st) _) as [json_str | e]; simpl; [| reflexivity].
  destruct (json_loads w json_str) as [json_arr | e]; simpl; [| reflexivity].
  destruct (getitem0 json_arr) as [json_obj | e]; simpl; [| reflexivity].
  destruct (parse_obj w json_obj) as [r | e]; reflexivity.
Qed.

Lemma reload_keeps_last_refreshed_time (w : World) (st : State) :
  _last_refreshed_time (self (snd (reload w st))) = _last_refreshed_time (self st).
Proof.
  rewrite reload_outcome. destruct (fetch_and_parse w st); reflexivity.
Qed.

(** C1. [needs_reload()] should return true iff the elapsed time exceeds
    the threshold. [Volume._needs_reload] returns neither true nor false:
    for every handle and every time it raises the TypeError of comparing a
    timedelta with a float, so it never agrees with the specified
    predicate; on a handle just built, read in 2020, the specified answer is
    true. *)
Theorem needs_reload_never_returns :
  (forall (now : datetime) (st : State),
      _needs_reload now st = (Raise (TypeError le_timedelta_float), st)
      /\ fst (_needs_reload now st)
         <> Return (needs_reload_spec now (_last_refreshed_time (self st))))
  /\ needs_reload_spec Fixtures.t_2020
       (_last_refreshed_time (self Fixtures.fresh_v)) = true.
Proof.
  split; [| reflexivity].
  intros now st. rewrite needs_reload_TypeError. split; [reflexivity | discriminate].
Qed.

(** C2. Every attribute access ([created_at], [driver]) of every handle, at
    every time, raises the TypeError of [timedelta <= float]; it leaves the
    handle and the log of invocations as they were, so neither a freshness
    decision nor a reload takes place. *)
Theorem attribute_access_raises_TypeError
    (w : World) (a : attribute) (now : datetime) (st : State) :
  read w a now st = (Raise (TypeError le_timedelta_float), st)
  /\ created_at w now st = (Raise (TypeError le_timedelta_float), st)
  /\ driver w now st = (Raise (TypeError le_timedelta_float), st)
  /\ _reload_if_necessary w now st = (Raise (TypeError le_timedelta_float), st).
Proof. rewrite read_TypeError. repeat split. Qed.

(** C3. [reload()] invokes [volume inspect] once, takes the first element of
    the decoded array and stores the parsed object in place of the cached
    one, but it does not stamp the time: after a successful reload of a
    handle just built, [_last_refreshed_time] is still [datetime.min], and
    no reload of any handle changes it. *)
Theorem reload_does_not_stamp_time :
  reload Fixtures.good_world Fixtures.fresh_v
  = (Return tt,
     {| self := {| _docker_cmd := ["docker"];
                   name := "v";
                   _volume_inspect_result := Some Fixtures.volume_v;
                   _last_refreshed_time := datetime_min |};
        calls := [["docker"; "volume"; "inspect"; "v"]] |})
  /\ forall (w : World) (st : State),
      _last_refreshed_time (self (snd (reload w st)))
      = _last_refreshed_time (self st).
Proof.
  split; [reflexivity | apply reload_keeps_last_refreshed_time].
Qed.



(** C5. An attribute read after the debounce window should trigger exactly
    one refresh and return the value. A handle reloaded in 2020 and read a
    quarter of a second later raises the TypeError instead: the read invokes
    nothing and returns no value, although the window has elapsed. *)
Theorem read_after_window_raises :
  let st1 := snd (reload Fixtures.good_world Fixtures.fresh_v) in
  needs_reload_spec Fixtures.t_2020_later Fixtures.t_2020 = true
  /\ read Fixtures.good_world attr_driver Fixtures.t_2020_later st1
     = (Raise (TypeError le_timedelta_float), st1)
  /\ calls st1 = [["docker"; "volume"; "inspect"; "v"]]
  /\ _volume_inspect_result (self st1) = Some Fixtures.volume_v.
Proof. repeat split. Qed.

Lemma reload_fails_fetch (w : World) (st : State) (e : exn) :
  reload_fails w st e <-> fetch_and_parse w st = Raise e.
Proof.
  unfold fetch_and_parse. split.
  - intros H. inversion H as [e' H1 | s e' H1 H2 | s a e' H1 H2 H3
                              | s a o e' H1 H2 H3 H4]; subst;
      rewrite H1; simpl; try rewrite H2; simpl; try rewrite H3; simpl;
      try rewrite H4; reflexivity.
  - destruct (engine w (calls st) (inspect_cmd (self st))) as [s | e1] eqn:H1; simpl.
    2:{ intros H; inversion H; subst. now apply process_fails. }
    destruct (json_loads w s) as [a | e2] eqn:H2; simpl.
    2:{ intros H; inversion H; subst. now apply (malformed_json w st s). }
    destruct (getitem0 a) as [o | e3] eqn:H3; simpl.
    2:{ intros H; inversion H; subst. now apply (wrong_shape w st s a). }
    intros H4. now apply (invalid_object w st s a o).
Qed.

(** C6, as amended. If [reload()] fails, because the process fails or
    because its output is malformed or wrongly shaped JSON, the error is
    raised to the caller and the handle is exactly as it was before the
    call: the cached result is the previous one, or still absent; and
    [reload()] raises in no other case, with the handle unchanged every
    time. *)
Theorem reload_failure_keeps_cache
    (w : World) (st : State) (e : exn) (Hfail : reload_fails w st e) :
  reload w st = (Raise e, invoked st)
  /\ self (snd (reload w st)) = self st
  /\ _volume_inspect_result (self (snd (reload w st)))
     = _volume_inspect_result (self st)
  /\ forall e' st', reload w st = (Raise e', st') ->
       reload_fails w st e' /\ self st' = self st.
Proof.
  apply reload_fails_fetch in Hfail.
  rewrite reload_outcome, Hfail. simpl. repeat split.
  - inversion H; subst. now apply reload_fails_fetch.
  - inversion H; reflexivity.
Qed.

Lemma reload_failure_keeps_cache_witness :
  reload Fixtures.failing_world Fixtures.fresh_v
  = (Raise (InvocationError "Error: No such volume: v"), invoked Fixtures.fresh_v)
  /\ self (snd (reload Fixtures.failing_world Fixtures.fresh_v))
     = self Fixtures.fresh_v
  /\ _volume_inspect_result (self (snd (reload Fixtures.failing_world Fixtures.fresh_v)))
     = _volume_inspect_result (self Fixtures.fresh_v)
  /\ forall e' st', reload Fixtures.failing_world Fixtures.fresh_v = (Raise e', st') ->
       reload_fails Fixtures.failing_world Fixtures.fresh_v e'
       /\ self st' = self Fixtures.fresh_v.
Proof.
  apply (reload_failure_keeps_cache Fixtures.failing_world Fixtures.fresh_v).
  apply process_fails. reflexivity.
Defined.

(** C6, as stated, fails at its last clause: on a handle whose only reload
    failed, the cached result is absent, and a read of [created_at] raises
    the TypeError of [timedelta <= float], not an error about the missing
    result. *)
Lemma never_refreshed_read_raises_TypeError :
  let st1 := snd (reload Fixtures.failing_world Fixtures.fresh_v) in
  fst (reload Fixtures.failing_world Fixtures.fresh_v)
  = Raise (InvocationError "Error: No such volume: v")
  /\ _volume_inspect_result (self st1) = None
  /\ read Fixtures.failing_world attr_created_at Fixtures.t_2020 st1
     = (Raise (TypeError le_timedelta_float), st1)
  /\ ~ is_unavailable_error
         (fst (read Fixtures.failing_world attr_created_at Fixtures.t_2020 st1)).
Proof.
  repeat split. intros [msg H]. discriminate H.
Qed.

Lemma create_full_cmd_eq (c : VolumeCLI) (volume_name drv : option string)
    (labels options : list (string * string)) :
  create_full_cmd c volume_name drv labels options
  = create_head c volume_name drv
      ++ flat_map label_pair labels ++ flat_map opt_pair options.
Proof.
  unfold create_full_cmd, create_head, _make_cli_cmd.
  change (fun cmd kv => cmd ++ ["--label"; key_eq_value kv])
    with (fun cmd kv => cmd ++ label_pair kv).
  change (fun cmd kv => cmd ++ ["--opt"; key_eq_value kv])
    with (fun cmd kv => cmd ++ opt_pair kv).
  rewrite !fold_left_app_flat_map.
  destruct volume_name, drv; simpl; repeat rewrite <- app_assoc; simpl;
    try rewrite app_nil_r; reflexivity.
Qed.

(** C10. [create] passes one command to the subprocess; every entry
    [key: value] of the labels mapping puts the consecutive pair [--label],
    [key=value] in it, the labels contribute one such pair each, in order,
    and for [{env: prod}] the pair is [--label env=prod]. *)
Theorem create_label_flag
    (w : World) (c : VolumeCLI) (volume_name drv : option string)
    (labels options : list (string * string)) (log : Calls)
    (key value : string) (Hin : In (key, value) labels) :
  let full_cmd := create_full_cmd c volume_name drv labels options in
  snd (create w c volume_name drv labels options log) = log ++ [full_cmd]
  /\ (exists before after,
         full_cmd = before ++ ["--label"; (key ++ "=" ++ value)%string] ++ after)
  /\ full_cmd = create_head c volume_name drv
                  ++ flat_map label_pair labels ++ flat_map opt_pair options.
Proof.
  simpl. split; [| split].
  - unfold create, run, bind, ret.
    destruct (engine w log _); reflexivity.
  - rewrite create_full_cmd_eq.
    destruct (in_split _ _ Hin) as (l1 & l2 & ->).
    exists (create_head c volume_name drv ++ flat_map label_pair l1),
           (flat_map label_pair l2 ++ flat_map opt_pair options).
    rewrite flat_map_app. simpl. unfold key_eq_value. simpl.
    repeat rewrite <- app_assoc. reflexivity.
  - apply create_full_cmd_eq.
Qed.

Lemma create_label_flag_witness :
  let full_cmd :=
    create_full_cmd Fixtures.cli None None [("env", "prod")] [] in
  snd (create Fixtures.good_world Fixtures.cli None None [("env", "prod")] [] [])
  = [] ++ [full_cmd]
  /\ (exists before after,
         full_cmd = before ++ ["--label"; "env=prod"] ++ after)
  /\ full_cmd = create_head Fixtures.cli None None
                  ++ flat_map label_pair [("env", "prod")] ++ flat_map opt_pair [].
Proof.
  apply (create_label_flag Fixtures.good_world Fixtures.cli None None
           [("env", "prod")] [] [] "env" "prod").
  simpl. left. reflexivity.
Defined.

End VolumeFacts.

(** ** Properties of the collection clients *)
Module ClientFacts.
Import Py Spec ListFacts.
Import Network Constructed.
Local Open Scope py_scope.

Lemma add_args_list_eq (full_cmd : Command) (flag : string) (values : list string) :
  add_args_list full_cmd flag values
  = full_cmd ++ flat_map (fun v => [PStr flag; PStr v]) values.
Proof. unfold add_args_list. apply fold_left_app_flat_map. Qed.

Lemma filter_args_eq (d : list (string * string)) :
  flat_map (fun v => [PStr "--filter"; PStr v]) (map Volume.key_eq_value d)
  = filter_args d.
Proof.
  unfold filter_args. induction d as [| kv d IH]; simpl; [| rewrite IH]; reflexivity.
Qed.

Lemma append_each_eq (full_cmd : Command) (xs : list pyval) :
  fold_left (fun cmd network => cmd ++ [network]) xs full_cmd = full_cmd ++ xs.
Proof.
  rewrite (fold_left_app_flat_map (fun x => [x])). f_equal.
  induction xs as [| x xs IH]; simpl; [| rewrite IH]; reflexivity.
Qed.

Lemma volume_remove_full_cmd_eq (c : Volume.VolumeCLI)
    (x : one_or_list Volume.VolumeArg) :
  Volume.remove_full_cmd c x
  = Volume.cli_docker_cmd c ++ ["volume"; "remove"]
      ++ map Volume.str (Volume.to_list x).
Proof.
  unfold Volume.remove_full_cmd, Volume._make_cli_cmd.
  rewrite (fold_left_app_flat_map (fun v => [Volume.str v])).
  assert (Hmap : forall l, flat_map (fun v => [Volume.str v]) l = map Volume.str l)
    by (intros l; induction l as [| v l IH]; simpl; [| rewrite IH]; reflexivity).
  rewrite Hmap, <- !app_assoc. reflexivity.
Qed.

Lemma remove_outcome (engine : Engine) (cfg : ClientConfig)
    (networks : pyval) (log : Calls) :
  remove engine cfg networks log
  = (on_output (engine log (network_remove_cmd cfg (to_list networks))) (fun _ => tt),
     log ++ [network_remove_cmd cfg (to_list networks)]).
Proof.
  unfold remove, run, bind, ret, on_output, network_remove_cmd.
  rewrite append_each_eq, <- app_assoc. simpl.
  destruct (engine log _); reflexivity.
Qed.

Lemma prune_outcome (engine : Engine) (cfg : ClientConfig)
    (filters : list (string * string)) (log : Calls) :
  prune engine cfg (PDict filters) log
  = (on_output (engine log (network_prune_cmd cfg filters)) (fun _ => tt),
     log ++ [network_prune_cmd cfg filters]).
Proof.
  unfold prune, run, bind, ret, lift, on_output, network_prune_cmd. simpl.
  rewrite add_args_list_eq, filter_args_eq, <- app_assoc. simpl.
  destruct (engine log _); reflexivity.
Qed.

Lemma list_outcome (engine : Engine) (cfg : ClientConfig)
    (filters : list (string * string)) (log : Calls) :
  list_ engine cfg (PDict filters) log
  = (on_output (engine log (network_list_cmd cfg filters))
       (fun out => map (fun id_ => Network__init__ cfg id_ true) (splitlines out)),
     log ++ [network_list_cmd cfg filters]).
Proof.
  unfold list_, run, bind, ret, lift, on_output, network_list_cmd. simpl.
  rewrite add_args_list_eq, filter_args_eq, <- app_assoc. simpl.
  destruct (engine log _); reflexivity.
Qed.


(** C7, as amended. [to_list] wraps a value that is not a list into a
    singleton list and returns a list as it is; so [remove] with one
    reference does exactly what [remove] with the singleton list does, and
    [remove] with a list appends the references in order, for the volume
    client and for the network client. [prune] takes a mapping of filters,
    not references: it appends [--filter key=value] per entry, and a
    reference or a list of references makes it raise before any
    invocation. *)
Theorem remove_single_or_sequence :
  (forall (T : Type) (x : T), Volume.to_list (One x) = [x])
  /\ (forall (T : Type) (xs : list T), Volume.to_list (Many xs) = xs)
  /\ (forall w c r log,
         Volume.remove w c (One r) log = Volume.remove w c (Many [r]) log)
  /\ (forall w c xs log,
         snd (Volume.remove w c (Many xs) log)
         = log ++ [Volume.cli_docker_cmd c ++ ["volume"; "remove"]
                     ++ map Volume.str xs])
  /\ (forall engine cfg s log,
         remove engine cfg (PStr s) log = remove engine cfg (PList [PStr s]) log)
  /\ (forall engine cfg n log,
         remove engine cfg (PNetwork n) log
         = remove engine cfg (PList [PNetwork n]) log)
  /\ (forall engine cfg xs log,
         snd (remove engine cfg (PList xs) log)
         = log ++ [network_remove_cmd cfg xs])
  /\ (forall engine cfg filters log,
         snd (prune engine cfg (PDict filters) log)
         = log ++ [network_prune_cmd cfg filters])
  /\ (forall engine cfg s log,
         exists e, prune engine cfg (PStr s) log = (Raise e, log))
  /\ (forall engine cfg xs log,
         exists e, prune engine cfg (PList xs) log = (Raise e, log)).
Proof.
  repeat split; try reflexivity.
  - intros w c xs log. unfold Volume.remove, Volume.run, bind, ret.
    rewrite volume_remove_full_cmd_eq. simpl.
    destruct (Volume.engine w log _); reflexivity.
  - intros engine cfg xs log. rewrite remove_outcome. reflexivity.
  - intros engine cfg filters log. rewrite prune_outcome. reflexivity.
  - intros engine cfg s log. eexists. reflexivity.
  - intros engine cfg xs log. eexists. reflexivity.
Qed.

(** C7, as stated, fails for [prune]: called with the reference [a], or
    with the list of it, [prune] raises and passes no command to the
    subprocess, whereas [remove] with [a] invokes [network remove a]. *)
Lemma prune_rejects_references :
  prune Fixtures.two_ids Fixtures.cfg (PStr "a") []
  = (Raise (AttributeError "'str' object has no attribute 'items'"), [])
  /\ prune Fixtures.two_ids Fixtures.cfg (PList [PStr "a"]) []
     = (Raise (AttributeError "'list' object has no attribute 'items'"), [])
  /\ remove Fixtures.two_ids Fixtures.cfg (PStr "a") []
     = (Return tt, [[PStr "docker"; PStr "network"; PStr "remove"; PStr "a"]])
  /\ prune Fixtures.two_ids Fixtures.cfg (PDict [("label", "env=prod")]) []
     = (Return tt, [[PStr "docker"; PStr "network"; PStr "prune"; PStr "--force";
                     PStr "--filter"; PStr "label=env=prod"]]).
Proof. repeat split. Qed.

(** C8. [inspect] of one reference returns the handle of that reference;
    [inspect] of a list of references returns a list of handles of the same
    length whose i-th handle is built from the i-th reference; for
    [[a; b]] that is the handle of [a], then the handle of [b]. *)
Theorem inspect_single_or_sequence (cfg : ClientConfig) (log : Calls) :
  (forall reference,
      inspect cfg (One reference) log
      = (Return (One (Network__init__ cfg reference false)), log))
  /\ (forall references,
         exists handles,
           inspect cfg (Many references) log = (Return (Many handles), log)
           /\ length handles = length references
           /\ (forall i,
                  nth_error handles i
                  = option_map (fun reference => Network__init__ cfg reference false)
                               (nth_error references i))
           /\ map _reference handles = references)
  /\ inspect cfg (Many ["a"; "b"]) log
     = (Return (Many [Network__init__ cfg "a" false; Network__init__ cfg "b" false]),
        log).
Proof.
  split; [reflexivity | split; [| reflexivity]].
  intros references. eexists. split; [reflexivity |]. repeat split.
  - apply length_map.
  - intros i. apply nth_error_map.
  - rewrite map_map. simpl. apply map_id.
Qed.

Lemma mapM_app {S A B} (f : A -> M S B) (xs ys : list A) (s : S) :
  mapM f (xs ++ ys) s
  = bind (mapM f xs) (fun a => bind (mapM f ys) (fun b => ret (a ++ b))) s.
Proof.
  revert s. induction xs as [| x xs IH]; intros s; simpl.
  - unfold bind, ret. destruct (mapM f ys s) as [[b | e] s1]; reflexivity.
  - unfold bind, ret in *. destruct (f x s) as [[b | e] s1]; [| reflexivity].
    rewrite IH. destruct (mapM f xs s1) as [[a | e] s2]; [| reflexivity].
    destruct (mapM f ys s2) as [[c | e] s3]; reflexivity.
Qed.

Lemma mapM_length {S A B} (f : A -> M S B) (l : list A) (s s' : S) (bs : list B)
    (H : mapM f l s = (Return bs, s')) :
  length bs = length l.
Proof.
  revert s s' bs H. induction l as [| a l IH]; intros s s' bs H; simpl in H.
  - inversion H. reflexivity.
  - unfold bind, ret in H. destruct (f a s) as [[b | e] s1]; [| discriminate].
    destruct (mapM f l s1) as [[cs | e] s2] eqn:E; [| discriminate].
    inversion H; subst. simpl. f_equal. exact (IH _ _ _ E).
Qed.


Lemma inspect_is_inspect_with_storing (cfg : ClientConfig)
    (x : one_or_list string) (log : Calls) :
  inspect cfg x log = inspect_with storing cfg x log.
Proof.
  destruct x as [reference | references]; [reflexivity |].
  unfold inspect, inspect_with, bind, ret.
  assert (H : forall l, mapM (fun reference => Network__init__with storing cfg reference false)
                          references l
                   = (Return (map (fun reference => Network__init__ cfg reference false)
                                  references), l)).
  { induction references as [| r rs IH]; intros l; simpl; [reflexivity |].
    unfold bind, ret. simpl. rewrite IH. reflexivity. }
  rewrite H. reflexivity.
Qed.




End ClientFacts.

(** ** Further properties of the volume handle *)
Module HandleFacts.
Import Py Volume Spec Aux.
Local Open Scope py_scope.

Lemma answers_fetch (w : World) (Hw : answers w) (st : State) :
  exists r, fetch_and_parse w st = Return r.
Proof.
  destruct (Hw (calls st) (inspect_cmd (self st))) as (out & arr & obj & r & H1 & H2 & H3 & H4).
  exists r. unfold fetch_and_parse. rewrite H1. simpl. rewrite H2. simpl.
  rewrite H3. simpl. exact H4.
Qed.

Lemma good_world_answers : answers Fixtures.good_world.
Proof.
  intros log cmd.
  exists Fixtures.inspect_output, (JList [Fixtures.volume_v_json]),
         Fixtures.volume_v_json, Fixtures.volume_v.
  repeat split.
Qed.

(** X1. A successful [reload()] replaces the cached result wholesale: the
    handle it leaves is the same whatever was cached before, and holds the
    newly parsed object. *)
Theorem reload_replaces_cache_wholesale
    (w : World) (st : State) (cache : option VolumeInspectResult)
    (r : VolumeInspectResult) (Hfetch : fetch_and_parse w st = Return r) :
  reload w (with_cache cache st)
  = (Return tt, set_volume_inspect_result r (invoked st))
  /\ _volume_inspect_result (self (snd (reload w (with_cache cache st)))) = Some r.
Proof.
  rewrite VolumeFacts.reload_outcome.
  change (fetch_and_parse w (with_cache cache st)) with (fetch_and_parse w st).
  rewrite Hfetch. split; reflexivity.
Qed.

Lemma reload_replaces_cache_wholesale_witness :
  reload Fixtures.good_world (with_cache (Some Fixtures.volume_v) Fixtures.fresh_v)
  = (Return tt, set_volume_inspect_result Fixtures.volume_v (invoked Fixtures.fresh_v))
  /\ _volume_inspect_result
       (self (snd (reload Fixtures.good_world
                     (with_cache (Some Fixtures.volume_v) Fixtures.fresh_v))))
     = Some Fixtures.volume_v.
Proof.
  apply (reload_replaces_cache_wholesale Fixtures.good_world Fixtures.fresh_v).
  reflexivity.
Defined.

(** X2. When the output decodes to a non-empty array, [reload()] validates
    its first element only: the outcome is that of [parse_obj] on the first
    element, and the rest of the array plays no part. *)
Theorem reload_reads_first_element_only
    (w : World) (st : State) (json_str : string) (first : json) (rest : list json)
    (Hrun : engine w (calls st) (inspect_cmd (self st)) = Return json_str)
    (Hloads : json_loads w json_str = Return (JList (first :: rest))) :
  reload w st
  = match parse_obj w first with
    | Return r => (Return tt, set_volume_inspect_result r (invoked st))
    | Raise e => (Raise e, invoked st)
    end.
Proof.
  rewrite VolumeFacts.reload_outcome. unfold fetch_and_parse.
  rewrite Hrun. simpl. rewrite Hloads. simpl.
  destruct (parse_obj w first); reflexivity.
Qed.

Lemma reload_reads_first_element_only_witness :
  reload Fixtures.good_world Fixtures.fresh_v
  = match parse_obj Fixtures.good_world Fixtures.volume_v_json with
    | Return r => (Return tt, set_volume_inspect_result r (invoked Fixtures.fresh_v))
    | Raise e => (Raise e, invoked Fixtures.fresh_v)
    end.
Proof.
  apply (reload_reads_first_element_only Fixtures.good_world Fixtures.fresh_v
           Fixtures.inspect_output Fixtures.volume_v_json []); reflexivity.
Defined.

(** X3. When [reload()] returns, the process output decoded to a non-empty
    array or to a non-empty string, the handle holds a cached result, and its
    name, its command prefix and its refresh time are those of before. *)
Theorem reload_success_inversion
    (w : World) (st st' : State) (Hok : reload w st = (Return tt, st')) :
  (exists json_str decoded,
      engine w (calls st) (inspect_cmd (self st)) = Return json_str
      /\ json_loads w json_str = Return decoded
      /\ ((exists first rest, decoded = JList (first :: rest))
          \/ (exists c s, decoded = JStr (String c s))))
  /\ (exists r, _volume_inspect_result (self st') = Some r)
  /\ name (self st') = name (self st)
  /\ _docker_cmd (self st') = _docker_cmd (self st)
  /\ _last_refreshed_time (self st') = _last_refreshed_time (self st)
  /\ calls st' = calls st ++ [inspect_cmd (self st)].
Proof.
  rewrite VolumeFacts.reload_outcome in Hok. unfold fetch_and_parse in Hok.
  destruct (engine w (calls st) (inspect_cmd (self st))) as [json_str | e] eqn:H1;
    simpl in Hok; [| discriminate].
  destruct (json_loads w json_str) as [decoded | e] eqn:H2; simpl in Hok; [| discriminate].
  destruct (getitem0 decoded) as [obj | e] eqn:H3; simpl in Hok; [| discriminate].
  destruct (parse_obj w obj) as [r | e] eqn:H4; [| discriminate].
  inversion Hok; subst st'; clear Hok. split.
  - exists json_str, decoded. split; [reflexivity | split; [exact H2 |]].
    destruct decoded as [| b | n | q | s | l | d]; simpl in H3; try discriminate.
    + destruct s as [| c s]; [discriminate |]. right. now exists c, s.
    + destruct l as [| x l]; [discriminate |]. left. now exists x, l.
  - split; [now exists r | repeat split].
Qed.

Lemma reload_success_inversion_witness :
  let st' := snd (reload Fixtures.good_world Fixtures.fresh_v) in
  (exists json_str decoded,
      engine Fixtures.good_world (calls Fixtures.fresh_v)
        (inspect_cmd (self Fixtures.fresh_v)) = Return json_str
      /\ json_loads Fixtures.good_world json_str = Return decoded
      /\ ((exists first rest, decoded = JList (first :: rest))
          \/ (exists c s, decoded = JStr (String c s))))
  /\ (exists r, _volume_inspect_result (self st') = Some r)
  /\ name (self st') = name (self Fixtures.fresh_v)
  /\ _docker_cmd (self st') = _docker_cmd (self Fixtures.fresh_v)
  /\ _last_refreshed_time (self st') = _last_refreshed_time (self Fixtures.fresh_v)
  /\ calls st' = calls Fixtures.fresh_v ++ [inspect_cmd (self Fixtures.fresh_v)].
Proof.
  apply (reload_success_inversion Fixtures.good_world Fixtures.fresh_v).
  reflexivity.
Defined.

(** X4. An explicit [reload()] is never debounced: when the process and the
    parsing succeed, [n] reloads in a row make exactly [n] invocations of
    [volume inspect], all with the same command. *)
Theorem reload_times_invokes_each_time
    (w : World) (Hw : answers w) (n : nat) (st : State) :
  fst (reload_times w n st) = Return tt
  /\ calls (snd (reload_times w n st))
     = calls st ++ repeat (inspect_cmd (self st)) n.
Proof.
  revert st. induction n as [| n IH]; intros st; simpl.
  - split; [reflexivity | now rewrite app_nil_r].
  - unfold bind. rewrite VolumeFacts.reload_outcome.
    destruct (answers_fetch w Hw st) as [r Hr]. rewrite Hr.
    destruct (IH (set_volume_inspect_result r (invoked st))) as [IH1 IH2].
    destruct (reload_times w n (set_volume_inspect_result r (invoked st)))
      as [res st'] eqn:E.
    simpl in *. split; [exact IH1 |].
    rewrite IH2. rewrite <- app_assoc. reflexivity.
Qed.

Lemma reload_times_invokes_each_time_witness :
  fst (reload_times Fixtures.good_world 3 Fixtures.fresh_v) = Return tt
  /\ calls (snd (reload_times Fixtures.good_world 3 Fixtures.fresh_v))
     = calls Fixtures.fresh_v ++ repeat (inspect_cmd (self Fixtures.fresh_v)) 3.
Proof.
  apply (reload_times_invokes_each_time Fixtures.good_world good_world_answers).
Defined.

End HandleFacts.

(** ** Further properties of the volume client *)
Module VolumeClientFacts.
Import Py Volume Spec Aux ListFacts.
Local Open Scope py_scope.

Lemma append_String_assoc (a : string) (c : ascii) (b : string) :
  ((a ++ String c EmptyString) ++ b)%string = (a ++ String c b)%string.
Proof. induction a as [| d a IH]; simpl; [| rewrite IH]; reflexivity. Qed.

Lemma append_empty (a : string) : (a ++ EmptyString)%string = a.
Proof. induction a as [| d a IH]; simpl; [| rewrite IH]; reflexivity. Qed.

Lemma occurs_append (c : ascii) (a b : string) :
  occurs c (a ++ b) = (occurs c a || occurs c b)%bool.
Proof.
  induction a as [| d a IH]; simpl; [reflexivity |].
  rewrite IH. now rewrite orb_assoc.
Qed.

Lemma split_newline_aux_nonempty (cur s : string) : split_newline_aux cur s <> [].
Proof.
  revert cur. induction s as [| c s IH]; intros cur; simpl; [discriminate |].
  destruct (Ascii.eqb c "010"); [discriminate | apply IH].
Qed.

Lemma join_newline_cons (p : string) (rest : list string) (Hrest : rest <> []) :
  join_newline (p :: rest) = (p ++ String "010" (join_newline rest))%string.
Proof. destruct rest; [contradiction | reflexivity]. Qed.

Lemma join_split_newline_aux (cur s : string) :
  join_newline (split_newline_aux cur s) = (cur ++ s)%string.
Proof.
  revert cur. induction s as [| c s IH]; intros cur; simpl.
  - now rewrite append_empty.
  - destruct (Ascii.eqb c "010") eqn:E.
    + apply Ascii.eqb_eq in E. subst c.
      rewrite join_newline_cons by apply split_newline_aux_nonempty.
      now rewrite IH.
    + rewrite IH. apply append_String_assoc.
Qed.

Lemma split_newline_aux_pieces (cur s : string) (Hcur : occurs "010" cur = false) :
  Forall (fun p => occurs "010" p = false) (split_newline_aux cur s).
Proof.
  revert cur Hcur. induction s as [| c s IH]; intros cur Hcur; simpl.
  - now constructor.
  - destruct (Ascii.eqb c "010") eqn:E.
    + constructor; [exact Hcur | now apply IH].
    + apply IH. rewrite occurs_append, Hcur. simpl. now rewrite E.
Qed.

Lemma split_newline_aux_length (cur s : string) :
  length (split_newline_aux cur s) = S (count_char "010" s).
Proof.
  revert cur. induction s as [| c s IH]; intros cur; simpl; [reflexivity |].
  destruct (Ascii.eqb c "010"); simpl; now rewrite IH.
Qed.

(** X5. [remove] sees a reference only through [str]: two arguments whose
    references have the same names make the same invocation with the same
    result; so a [Volume] handle, whatever it has cached, can be given in
    place of its name. *)
Theorem remove_depends_on_names_only
    (w : World) (c : VolumeCLI) (x y : one_or_list VolumeArg) (log : Calls)
    (Hnames : map str (to_list x) = map str (to_list y)) :
  remove w c x log = remove w c y log.
Proof.
  unfold remove. rewrite !ClientFacts.volume_remove_full_cmd_eq, Hnames. reflexivity.
Qed.

Lemma remove_depends_on_names_only_witness :
  remove Fixtures.good_world Fixtures.cli
    (One (ArgVolume (self (snd (reload Fixtures.good_world Fixtures.fresh_v))))) []
  = remove Fixtures.good_world Fixtures.cli (Many [ArgStr "v"]) [].
Proof.
  apply (remove_depends_on_names_only Fixtures.good_world Fixtures.cli).
  reflexivity.
Defined.

(** X6. The strings that the volume [remove] returns are the output of the
    process cut at its newlines: there is at least one of them (for an empty
    output, one empty string), one more than there are newlines, none
    contains a newline, and joined with newlines they give the output
    back. *)
Theorem remove_returns_output_lines
    (w : World) (c : VolumeCLI) (x : one_or_list VolumeArg) (log : Calls)
    (out : string) (Hrun : engine w log (remove_full_cmd c x) = Return out) :
  exists pieces,
    remove w c x log = (Return pieces, log ++ [remove_full_cmd c x])
    /\ pieces <> []
    /\ length pieces = S (count_char "010" out)
    /\ Forall (fun p => occurs "010" p = false) pieces
    /\ join_newline pieces = out.
Proof.
  exists (split_newline out). unfold remove, run, bind, ret. rewrite Hrun.
  unfold split_newline. repeat split.
  - apply split_newline_aux_nonempty.
  - apply split_newline_aux_length.
  - now apply split_newline_aux_pieces.
  - apply join_split_newline_aux.
Qed.

Lemma remove_returns_output_lines_witness :
  exists pieces,
    remove Fixtures.good_world Fixtures.cli (One (ArgStr "v")) []
    = (Return pieces, [] ++ [remove_full_cmd Fixtures.cli (One (ArgStr "v"))])
    /\ pieces <> []
    /\ length pieces = S (count_char "010" Fixtures.inspect_output)
    /\ Forall (fun p => occurs "010" p = false) pieces
    /\ join_newline pieces = Fixtures.inspect_output.
Proof.
  apply (remove_returns_output_lines Fixtures.good_world Fixtures.cli
           (One (ArgStr "v")) [] Fixtures.inspect_output).
  reflexivity.
Defined.

(** X7. Every entry [key: value] of the options mapping of [create] puts the
    pair [--opt], [key=value] in the command, after the flags of all the
    labels and in the order of the options. *)
Theorem create_option_flag
    (c : VolumeCLI) (volume_name drv : option string)
    (labels options : list (string * string))
    (key value : string) (Hin : In (key, value) options) :
  exists earlier later,
    options = earlier ++ (key, value) :: later
    /\ create_full_cmd c volume_name drv labels options
       = create_head c volume_name drv
           ++ flat_map label_pair labels
           ++ flat_map opt_pair earlier
           ++ ["--opt"; (key ++ "=" ++ value)%string]
           ++ flat_map opt_pair later.
Proof.
  destruct (in_split _ _ Hin) as (l1 & l2 & ->).
  exists l1, l2. split; [reflexivity |].
  rewrite VolumeFacts.create_full_cmd_eq, flat_map_app. reflexivity.
Qed.

Lemma create_option_flag_witness :
  exists earlier later,
    [("type", "nfs"); ("device", ":/srv")] = earlier ++ ("device", ":/srv") :: later
    /\ create_full_cmd Fixtures.cli (Some "data") None [("env", "prod")]
         [("type", "nfs"); ("device", ":/srv")]
       = create_head Fixtures.cli (Some "data") None
           ++ flat_map label_pair [("env", "prod")]
           ++ flat_map opt_pair earlier
           ++ ["--opt"; "device=:/srv"]
           ++ flat_map opt_pair later.
Proof.
  apply (create_option_flag Fixtures.cli (Some "data") None [("env", "prod")]
           [("type", "nfs"); ("device", ":/srv")] "device" ":/srv").
  simpl. right. left. reflexivity.
Defined.

(** X8. The flag text [key=value] determines the entry as long as the keys
    hold no equals sign: two entries with such keys and the same text are
    the same entry. *)
Theorem key_eq_value_injective
    (k1 v1 k2 v2 : string)
    (Hk1 : occurs "=" k1 = false) (Hk2 : occurs "=" k2 = false)
    (Heq : key_eq_value (k1, v1) = key_eq_value (k2, v2)) :
  k1 = k2 /\ v1 = v2.
Proof.
  unfold key_eq_value in Heq. simpl in Heq.
  revert k2 Hk2 Heq. induction k1 as [| c k1 IH]; intros k2 Hk2 Heq.
  - destruct k2 as [| d k2]; simpl in *.
    + inversion Heq. now split.
    + inversion Heq; subst d. simpl in Hk2. discriminate.
  - destruct k2 as [| d k2]; simpl in *.
    + inversion Heq; subst c. simpl in Hk1. discriminate.
    + inversion Heq; subst d.
      apply orb_false_iff in Hk1. destruct Hk1 as [_ Hk1].
      apply orb_false_iff in Hk2. destruct Hk2 as [_ Hk2].
      destruct (IH Hk1 k2 Hk2 H1) as [-> ->]. now split.
Qed.

Lemma key_eq_value_injective_witness : "env" = "env" /\ "prod" = "prod".
Proof.
  apply (key_eq_value_injective "env" "prod" "env" "prod"); reflexivity.
Defined.

(** The condition of X8 is needed: with an equals sign in a key the flag
    text is ambiguous, the entries [a=b: c] and [a: b=c] give the same
    [--label a=b=c]. *)
Remark key_eq_value_ambiguous :
  key_eq_value ("a=b", "c") = key_eq_value ("a", "b=c")
  /\ forall c vn drv options,
      create_full_cmd c vn drv [("a=b", "c")] options
      = create_full_cmd c vn drv [("a", "b=c")] options.
Proof. split; reflexivity. Qed.

(** X9. The handle that [create] returns carries the text the process
    printed as its name and the command prefix of the client: a [reload()]
    of it invokes [volume inspect] on that text, right after the invocation
    of [create]. *)
Theorem create_then_reload
    (w : World) (c : VolumeCLI) (volume_name drv : option string)
    (labels options : list (string * string)) (log : Calls) (out : string)
    (Hrun : engine w log (create_full_cmd c volume_name drv labels options)
            = Return out) :
  exists v log1,
    create w c volume_name drv labels options log = (Return v, log1)
    /\ name v = out
    /\ _volume_inspect_result v = None
    /\ calls (snd (reload w {| self := v; calls := log1 |}))
       = log ++ [create_full_cmd c volume_name drv labels options;
                 cli_docker_cmd c ++ ["volume"; "inspect"; out]].
Proof.
  eexists. eexists. unfold create, run, bind, ret. rewrite Hrun.
  split; [reflexivity |]. simpl. repeat split.
  rewrite VolumeFacts.reload_outcome.
  destruct (fetch_and_parse w _); simpl; unfold inspect_cmd; simpl;
    rewrite <- app_assoc; reflexivity.
Qed.

Lemma create_then_reload_witness :
  exists v log1,
    create Fixtures.good_world Fixtures.cli (Some "v") None [] [] [] = (Return v, log1)
    /\ name v = Fixtures.inspect_output
    /\ _volume_inspect_result v = None
    /\ calls (snd (reload Fixtures.good_world {| self := v; calls := log1 |}))
       = [] ++ [create_full_cmd Fixtures.cli (Some "v") None [] [];
                cli_docker_cmd Fixtures.cli
                  ++ ["volume"; "inspect"; Fixtures.inspect_output]].
Proof.
  apply (create_then_reload Fixtures.good_world Fixtures.cli (Some "v") None [] [] []
           Fixtures.inspect_output).
  reflexivity.
Defined.

End VolumeClientFacts.

(** ** Further properties of the network client and of the network handle *)
Module NetworkFacts.
Import Py Spec Aux ListFacts.
Import Network Handle Constructed.
Local Open Scope py_scope.

Lemma one_line_append (a : string) (c : ascii) :
  one_line (a ++ String c EmptyString)
  = (one_line a && negb (is_line_boundary c))%bool.
Proof.
  induction a as [| d a IH]; simpl.
  - now rewrite andb_true_r.
  - rewrite IH. now rewrite andb_assoc.
Qed.

Lemma splitlines_aux_one_line (after_cr : bool) (cur s : string)
    (Hcur : one_line cur = true) :
  Forall (fun p => one_line p = true) (splitlines_aux after_cr cur s).
Proof.
  revert after_cr cur Hcur.
  induction s as [| c s IH]; intros after_cr cur Hcur; simpl.
  - destruct cur; constructor; [exact Hcur | constructor].
  - destruct (after_cr && Ascii.eqb c "010")%bool; [now apply IH |].
    destruct (is_line_boundary c) eqn:E.
    + constructor; [exact Hcur | now apply IH].
    + apply IH. rewrite one_line_append, Hcur, E. reflexivity.
Qed.

(** X10. Used as a context manager, a network is removed when the block is
    left, whether the body returned or raised: the last invocation is
    [network remove] with the handle itself. The outcome of the block is the
    outcome of the body, unless the removal fails, whose exception then
    takes its place. *)
Theorem with_always_removes
    {A : Type} (engine : Engine) (network : Network)
    (body : Network -> M Calls A) (log : Calls) :
  let full_cmd := network_remove_cmd (client_config network) [PNetwork network] in
  snd (with_ engine network body log) = snd (body network log) ++ [full_cmd]
  /\ fst (with_ engine network body log)
     = match engine (snd (body network log)) full_cmd with
       | Return _ => fst (body network log)
       | Raise e => Raise e
       end.
Proof.
  simpl. unfold with_, __exit__, __enter__, Network_remove.
  destruct (body network log) as [outcome log1]. simpl.
  rewrite ClientFacts.remove_outcome. unfold on_output. simpl.
  destruct (engine log1 _); split; reflexivity.
Qed.

(** X11. Whatever the constructor of the handle class does, [inspect]
    agrees on a reference and on its singleton list, and works through a list
    in order: [inspect] of [xs ++ ys] is [inspect] of [xs] followed by
    [inspect] of [ys], the first exception ending it; when it returns, there
    is one handle per reference. *)
Theorem inspect_single_and_sequence_agree
    (base : BaseConstructor) (cfg : ClientConfig) (log : Calls) :
  (forall reference,
      inspect_with base cfg (Many [reference]) log
      = match inspect_with base cfg (One reference) log with
        | (Return h, log1) => (Return (Many (Volume.to_list h)), log1)
        | (Raise e, log1) => (Raise e, log1)
        end)
  /\ (forall xs ys,
         inspect_with base cfg (Many (xs ++ ys)) log
         = match inspect_with base cfg (Many xs) log with
           | (Return hx, log1) =>
               match inspect_with base cfg (Many ys) log1 with
               | (Return hy, log2) =>
                   (Return (Many (Volume.to_list hx ++ Volume.to_list hy)), log2)
               | (Raise e, log2) => (Raise e, log2)
               end
           | (Raise e, log1) => (Raise e, log1)
           end)
  /\ (forall x handles log1,
         inspect_with base cfg x log = (Return handles, log1) ->
         length (Volume.to_list handles) = length (Volume.to_list x)).
Proof.
  split; [| split].
  - intros reference. unfold inspect_with, bind, ret. simpl. unfold bind, ret.
    destruct (Network__init__with base cfg reference false log) as [[h | e] log1];
      reflexivity.
  - intros xs ys. unfold inspect_with, bind, ret. rewrite ClientFacts.mapM_app.
    unfold bind, ret.
    destruct (mapM _ xs log) as [[hx | e] log1]; [| reflexivity].
    destruct (mapM _ ys log1) as [[hy | e] log2]; reflexivity.
  - intros x handles log1 H. destruct x as [reference | references];
      unfold inspect_with, bind, ret in H.
    + destruct (Network__init__with base cfg reference false log) as [[h | e] l];
        inversion H; reflexivity.
    + destruct (mapM _ references log) as [[hs | e] l] eqn:E; inversion H; subst.
      simpl. now apply ClientFacts.mapM_length in E.
Qed.

(** With a constructor that resolves a reference by an inspection,
    [inspect] of [a] invokes [network inspect a]; with one that stores the
    reference, it invokes nothing. *)
Remark inspect_with_two_constructors :
  snd (inspect_with (resolving Fixtures.two_ids) Fixtures.cfg (One "a") [])
  = [[PStr "docker"; PStr "network"; PStr "inspect"; PStr "a"]]
  /\ snd (inspect_with storing Fixtures.cfg (One "a") []) = [].
Proof. split; reflexivity. Qed.


(** X12. [list] returns one handle per line of the output, in order, each
    marked as an immutable identifier and without a cached result; no
    identifier holds a line boundary, and an empty output gives no handle
    at all. *)
Theorem list_returns_one_handle_per_line
    (engine : Engine) (cfg : ClientConfig) (filters : list (string * string))
    (log : Calls) (out : string)
    (Hrun : engine log (network_list_cmd cfg filters) = Return out) :
  exists handles,
    list_ engine cfg (PDict filters) log
    = (Return handles, log ++ [network_list_cmd cfg filters])
    /\ map _reference handles = splitlines out
    /\ Forall (fun h => _is_immutable_id h = true
                        /\ _inspect_result h = None
                        /\ one_line (_reference h) = true) handles
    /\ (out = EmptyString -> handles = []).
Proof.
  eexists. rewrite ClientFacts.list_outcome, Hrun. simpl.
  split; [reflexivity |]. split; [| split].
  - rewrite map_map. simpl. apply map_id.
  - apply Forall_forall. intros h Hin. apply in_map_iff in Hin.
    destruct Hin as (id_ & <- & Hid). repeat split. simpl.
    pose proof (splitlines_aux_one_line false EmptyString out eq_refl) as Hall.
    rewrite Forall_forall in Hall. now apply Hall.
  - intros ->. reflexivity.
Qed.

Lemma list_returns_one_handle_per_line_witness :
  exists handles,
    list_ Fixtures.two_ids Fixtures.cfg (PDict []) []
    = (Return handles, [] ++ [network_list_cmd Fixtures.cfg []])
    /\ map _reference handles = splitlines "id1
id2"
    /\ Forall (fun h => _is_immutable_id h = true
                        /\ _inspect_result h = None
                        /\ one_line (_reference h) = true) handles
    /\ ("id1
id2" = EmptyString -> handles = []).
Proof.
  apply (list_returns_one_handle_per_line Fixtures.two_ids Fixtures.cfg [] []).
  reflexivity.
Defined.

(** X13. [remove] normalises its argument once and for all: passing
    [to_list(x)] does what passing [x] does, for the network client and for
    the volume client; a list inside the list is not flattened but appended
    to the command as it is. *)
Theorem remove_of_to_list :
  (forall x, to_list (PList (to_list x)) = to_list x)
  /\ (forall engine cfg x log,
         remove engine cfg (PList (to_list x)) log = remove engine cfg x log)
  /\ (forall w c x log,
         Volume.remove w c (Many (Volume.to_list x)) log = Volume.remove w c x log)
  /\ (forall engine cfg inner log,
         snd (remove engine cfg (PList [PList inner]) log)
         = log ++ [network_remove_cmd cfg [PList inner]]).
Proof.
  split; [| split; [| split]].
  - intros x. destruct x; reflexivity.
  - intros engine cfg x log. destruct x; reflexivity.
  - intros w c x log. destruct x; reflexivity.
  - intros engine cfg inner log. now rewrite ClientFacts.remove_outcome.
Qed.

End NetworkFacts.
